(** * hola.py : the "Hola Mundo" voice skill

    A shallow embedding of [src/hola.py]: four request handlers, one
    catch-all exception handler, their registration on a skill builder and
    the entry point obtained from it.

    The handlers mutate the response builder carried by the handler input
    and the exception handler prints to the standard output, so handler code
    lives in an error monad over a state made of those two things.  A raised
    error keeps the state reached so far: the exception handler goes on with
    the very builder the failed handler was writing to. *)

From Stdlib Require Import String List Bool Arith Lia Permutation.
From ExtLib Require Import Structures.Monad Structures.MonadState
  Structures.MonadExc Data.Monads.StateMonad Data.Monads.EitherMonad.
Import ListNotations.
Import MonadNotation.
Local Open Scope string_scope.
Local Open Scope list_scope.
Local Open Scope monad_scope.

Set Implicit Arguments.

(** ** Requests *)

(** An intent: its name and its slots (key, value). *)
Record Intent : Type := mkIntent
  { name : string;
    slots : list (string * string) }.

(** The request classes of the platform.  Only an [IntentRequest] carries an
    intent; every class has a fixed [object_type], except the ones this skill
    never looks at, kept as [OtherRequest] with their type string. *)
Inductive Request : Type :=
| LaunchRequest
| IntentRequest (intent : Intent)
| SessionEndedRequest
| OtherRequest (ty : string).

Definition object_type (r : Request) : string :=
  match r with
  | LaunchRequest => "LaunchRequest"
  | IntentRequest _ => "IntentRequest"
  | SessionEndedRequest => "SessionEndedRequest"
  | OtherRequest ty => ty
  end.

Record RequestEnvelope : Type := mkEnvelope { request : Request }.

(** The immutable part of the handler input.  Its [response_builder] is the
    mutable part and is the state of the monad below. *)
Record HandlerInput : Type := mkInput { request_envelope : RequestEnvelope }.

(** ** Responses *)

Record SimpleCard : Type := mkSimpleCard
  { title : string;
    content : string }.

(** Every field starts unset ([None]) in a new builder. *)
Record Response : Type := mkResponse
  { output_speech : option string;
    card : option SimpleCard;
    reprompt : option string;
    should_end_session : option bool }.

Record PyException : Type := mkException { message : string }.

(** ** State and effects *)

(** [response_builder] is [handler_input.response_builder.response];
    [stdout] is what [print] has written, oldest first. *)
Record World : Type := mkWorld
  { response_builder : Response;
    stdout : list PyException }.

#[local] Existing Instance Monad_state.

Definition M : Type -> Type := eitherT PyException (state World).

Definition run {A : Type} (c : M A) (w : World) : (PyException + A) * World :=
  runState (unEitherT c) w.

Definition update_builder (f : Response -> Response) : M unit :=
  w <- get ;;
  put {| response_builder := f (response_builder w); stdout := stdout w |}.

(** ** The vendor SDK's helpers *)

(** Modelled from the spec: [is_request_type] of [ask_sdk_core.utils], which
    is not part of src/.  "matches when request type is ...": the request's
    type string equals the given one. *)
Definition is_request_type (request_type : string)
  (handler_input : HandlerInput) : bool :=
  String.eqb (object_type (request (request_envelope handler_input)))
    request_type.

(** Modelled from the spec: [is_intent_name] of [ask_sdk_core.utils], which is
    not part of src/.  "matches when request type is "intent" and intent name
    equals a fixed ... identifier". *)
Definition is_intent_name (intent_name : string)
  (handler_input : HandlerInput) : bool :=
  match request (request_envelope handler_input) with
  | IntentRequest intent => String.eqb (name intent) intent_name
  | _ => false
  end.

(** Modelled from the spec: the response builder of [ask_sdk_core], which is
    not part of src/.  The spec's response has a spoken text, an optional
    card, an optional reprompt and the should-end-session flag; [ask] "sets
    the ... speech as reprompt (keeps microphone open awaiting input)".  In
    Python each method returns the builder, so calls are chained with a dot;
    here they are sequenced with [;;]. *)
Module ResponseFactory.

Definition new : Response :=
  {| output_speech := None; card := None;
     reprompt := None; should_end_session := None |}.

Definition speak (speech : string) : M unit :=
  update_builder (fun r =>
    {| output_speech := Some speech; card := card r;
       reprompt := reprompt r;
       should_end_session := should_end_session r |}).

Definition ask (speech : string) : M unit :=
  update_builder (fun r =>
    {| output_speech := output_speech r; card := card r;
       reprompt := Some speech;
       should_end_session := Some false |}).

Definition set_card (c : SimpleCard) : M unit :=
  update_builder (fun r =>
    {| output_speech := output_speech r; card := Some c;
       reprompt := reprompt r;
       should_end_session := should_end_session r |}).

Definition set_should_end_session (b : bool) : M unit :=
  update_builder (fun r =>
    {| output_speech := output_speech r; card := card r;
       reprompt := reprompt r;
       should_end_session := Some b |}).

Definition response : M Response :=
  w <- get ;; ret (response_builder w).

End ResponseFactory.

(** [print(x)]: one more line on the standard output. *)
Definition print (x : PyException) : M unit :=
  w <- get ;;
  put {| response_builder := response_builder w; stdout := stdout w ++ [x] |}.

(** ** Handler interfaces *)

(** [AbstractRequestHandler]: the two methods a request handler implements. *)
Record AbstractRequestHandler : Type := mkRequestHandler
  { can_handle : HandlerInput -> M bool;
    handle : HandlerInput -> M Response }.

(** [AbstractExceptionHandler]: the same two methods, with the exception. *)
Record AbstractExceptionHandler : Type := mkExceptionHandler
  { exc_can_handle : HandlerInput -> PyException -> M bool;
    exc_handle : HandlerInput -> PyException -> M Response }.

(** ** The handlers of hola.py *)

Definition LaunchRequestHandler : AbstractRequestHandler :=
  {| can_handle := fun handler_input =>
       ret (is_request_type "LaunchRequest" handler_input);
     handle := fun handler_input =>
       let speech_text :=
         "Hola, Bienvenido al Kit de Skills de la Alexa, ahora puedes decir Hola Mundo!" in
       ResponseFactory.speak speech_text ;;
       ResponseFactory.set_card (mkSimpleCard "Hola Mundo" speech_text) ;;
       ResponseFactory.set_should_end_session false ;;
       ResponseFactory.response |}.

Definition HolaMundoIntentHandler : AbstractRequestHandler :=
  {| can_handle := fun handler_input =>
       ret (is_intent_name "HolaMundoIntent" handler_input);
     handle := fun handler_input =>
       let speech_text :=
         "El mundo es un lugar maravilloso, lástima que los humanos no lo cuidan como debería ser" in
       ResponseFactory.speak speech_text ;;
       ResponseFactory.set_card (mkSimpleCard "Hola Mundo" speech_text) ;;
       ResponseFactory.set_should_end_session true ;;
       ResponseFactory.response |}.

Definition HelpIntentHandler : AbstractRequestHandler :=
  {| can_handle := fun handler_input =>
       ret (is_intent_name "AMAZON.HelpIntent" handler_input);
     handle := fun handler_input =>
       let speech_text :=
         "Puedes decirme Hola Mundo y te responderé que pienso!" in
       ResponseFactory.speak speech_text ;;
       ResponseFactory.ask speech_text ;;
       ResponseFactory.set_card (mkSimpleCard "Hola Mundo" speech_text) ;;
       ResponseFactory.response |}.

Definition CancelAndStopIntentHandler : AbstractRequestHandler :=
  {| can_handle := fun handler_input =>
       ret (is_intent_name "AMAZON.CancelIntent" handler_input
            || is_intent_name "AMAZON.StopIntent" handler_input);
     handle := fun handler_input =>
       let speech_text :=
         "Nos vemos luego, acuerdate de cuidar al mundo para que siga siendo un lugar maravilloso!" in
       ResponseFactory.speak speech_text ;;
       ResponseFactory.set_card (mkSimpleCard "Hola Mundo" speech_text) ;;
       ResponseFactory.set_should_end_session true ;;
       ResponseFactory.response |}.

Definition AllExceptionHandler : AbstractExceptionHandler :=
  {| exc_can_handle := fun handler_input exception => ret true;
     exc_handle := fun handler_input exception =>
       print exception ;;
       let speech :=
         "Ah caray, no lo he entendido. Puedes repetirmelo una vez más!!" in
       ResponseFactory.speak speech ;;
       ResponseFactory.ask speech ;;
       ResponseFactory.response |}.

(** ** The skill builder and the dispatcher *)

(** Modelled from the spec: the skill builder of [ask_sdk_core], which is not
    part of src/.  "an ordered list of registered handlers ... plus one
    fallback exception handler": each registration goes to the end of its
    list. *)
Record SkillBuilder : Type := mkSkillBuilder
  { request_handlers : list AbstractRequestHandler;
    exception_handlers : list AbstractExceptionHandler }.

Definition new_SkillBuilder : SkillBuilder :=
  {| request_handlers := []; exception_handlers := [] |}.

Definition add_request_handler (h : AbstractRequestHandler)
  (b : SkillBuilder) : SkillBuilder :=
  {| request_handlers := request_handlers b ++ [h];
     exception_handlers := exception_handlers b |}.

Definition add_exception_handler (h : AbstractExceptionHandler)
  (b : SkillBuilder) : SkillBuilder :=
  {| request_handlers := request_handlers b;
     exception_handlers := exception_handlers b ++ [h] |}.

(** Modelled from the spec: the error of the dispatcher of [ask_sdk_core],
    which is not part of src/, for a request no handler accepts; the spec's
    UnhandledRequest, "a raised configuration error". *)
Definition DispatchException : PyException :=
  mkException "Unable to find a suitable request handler".

(** Modelled from the spec: the request dispatcher of [ask_sdk_core] behind
    [lambda_handler], which is not part of src/.  "find the first Handler
    whose predicate evaluates to true; invoke its action; return the
    resulting OutgoingResponse.  If predicate evaluation or action execution
    raises an error, invoke the ExceptionHandler matching the error ... and
    return its response instead.  If no handler matches and no exception
    occurs, this is a configuration error ... signal it explicitly": the
    spec names "a raised configuration error" as the way to do so, and "any
    error raised during matching or handling is caught by the fallback
    handler".  So finding no handler raises [DispatchException], which then
    goes the way of every other error. *)

Fixpoint get_request_handler (hs : list AbstractRequestHandler)
  (handler_input : HandlerInput) : M (option AbstractRequestHandler) :=
  match hs with
  | [] => ret None
  | h :: rest =>
      b <- can_handle h handler_input ;;
      if b : bool then ret (Some h)
      else get_request_handler rest handler_input
  end.

Fixpoint get_exception_handler (hs : list AbstractExceptionHandler)
  (handler_input : HandlerInput) (exception : PyException)
  : M (option AbstractExceptionHandler) :=
  match hs with
  | [] => ret None
  | h :: rest =>
      b <- exc_can_handle h handler_input exception ;;
      if b : bool then ret (Some h)
      else get_exception_handler rest handler_input exception
  end.

Definition dispatch_request (hs : list AbstractRequestHandler)
  (handler_input : HandlerInput) : M Response :=
  found <- get_request_handler hs handler_input ;;
  match found with
  | Some h => handle h handler_input
  | None => raise DispatchException
  end.

(** An error no exception handler takes goes on to the caller. *)
Definition handle_exception (hs : list AbstractExceptionHandler)
  (handler_input : HandlerInput) (exception : PyException) : M Response :=
  found <- get_exception_handler hs handler_input exception ;;
  match found with
  | Some h => exc_handle h handler_input exception
  | None => raise exception
  end.

Definition dispatch (b : SkillBuilder) (handler_input : HandlerInput)
  : M Response :=
  catch (dispatch_request (request_handlers b) handler_input)
        (fun exception =>
           handle_exception (exception_handlers b) handler_input exception).

(** What one invocation gives back: a response, or the error that no
    exception handler took. *)
Inductive DispatchResult : Type :=
| Responded (r : Response)
| Uncaught (e : PyException).

(** Each invocation starts from a new builder and an empty output. *)
Definition fresh : World :=
  {| response_builder := ResponseFactory.new; stdout := [] |}.

Definition finish (res : (PyException + Response) * World)
  : DispatchResult * list PyException :=
  match res with
  | (inr r, w) => (Responded r, stdout w)
  | (inl e, w) => (Uncaught e, stdout w)
  end.

(** The entry point: the result and what was printed while computing it. *)
Definition lambda_handler (b : SkillBuilder) (event : Request)
  : DispatchResult * list PyException :=
  let handler_input := mkInput (mkEnvelope event) in
  finish (run (dispatch b handler_input) fresh).

(** ** The registrations of hola.py, in the order of the file *)

Definition sb : SkillBuilder :=
  add_exception_handler AllExceptionHandler
    (add_request_handler CancelAndStopIntentHandler
      (add_request_handler HelpIntentHandler
        (add_request_handler HolaMundoIntentHandler
          (add_request_handler LaunchRequestHandler
            new_SkillBuilder)))).

Definition handler : Request -> DispatchResult * list PyException :=
  lambda_handler sb.

(** ** Auxiliary definitions for the statements *)

(** Whether [h]'s predicate answers [True] on the given input and state. *)
Definition accepts (h : AbstractRequestHandler) (handler_input : HandlerInput)
  (w : World) : bool :=
  match fst (run (can_handle h handler_input) w) with
  | inr true => true
  | _ => false
  end.

(** [declines handler_input w h]: the predicate of [h] answers [False] and
    leaves the state as it was. *)
Definition declines (handler_input : HandlerInput) (w : World)
  (h : AbstractRequestHandler) : Prop :=
  run (can_handle h handler_input) w = (inr false, w).

(** The requests hola.py has a handler for: those of type "LaunchRequest" and
    the intent requests with one of the four names its predicates test. *)
Definition served (event : Request) : Prop :=
  object_type event = "LaunchRequest" \/
  exists intent,
    event = IntentRequest intent /\
    In (name intent)
       ["HolaMundoIntent"; "AMAZON.HelpIntent";
        "AMAZON.CancelIntent"; "AMAZON.StopIntent"].

(** A handler whose predicate fails. *)
Definition BrokenPredicateHandler (e : PyException)
  : AbstractRequestHandler :=
  {| can_handle := fun _ => raise e;
     handle := fun _ => ResponseFactory.response |}.

(** A handler that takes every request, writes a card, says it will end the
    session and then fails. *)
Definition FailingActionHandler (e : PyException) : AbstractRequestHandler :=
  {| can_handle := fun _ => ret true;
     handle := fun _ =>
       ResponseFactory.set_card (mkSimpleCard "Hola Mundo" "...") ;;
       ResponseFactory.set_should_end_session true ;;
       raise e |}.

Unset Implicit Arguments.

(** ** Running the monad: one equation per operation *)

Lemma run_ret : forall (A : Type) (a : A) (w : World),
  run (ret a) w = (inr a, w).
Proof. reflexivity. Qed.

Lemma run_bind : forall (A B : Type) (c : M A) (f : A -> M B) (w : World),
  run (bind c f) w =
  match run c w with
  | (inr a, w') => run (f a) w'
  | (inl e, w') => (inl e, w')
  end.
Proof.
  intros A B c f w. unfold run. cbn.
  destruct (runState (unEitherT c) w) as [[e | a] w']; reflexivity.
Qed.

Lemma run_raise : forall (A : Type) (e : PyException) (w : World),
  run (raise e : M A) w = (inl e, w).
Proof. reflexivity. Qed.

Lemma run_catch : forall (A : Type) (c : M A) (k : PyException -> M A)
  (w : World),
  run (catch c k) w =
  match run c w with
  | (inl e, w') => run (k e) w'
  | (inr a, w') => (inr a, w')
  end.
Proof.
  intros A c k w. unfold run. cbn.
  destruct (runState (unEitherT c) w) as [[e | a] w']; reflexivity.
Qed.

Example handler_launch :
  handler LaunchRequest =
  (Responded
     {| output_speech := Some "Hola, Bienvenido al Kit de Skills de la Alexa, ahora puedes decir Hola Mundo!";
        card := Some (mkSimpleCard "Hola Mundo" "Hola, Bienvenido al Kit de Skills de la Alexa, ahora puedes decir Hola Mundo!");
        reprompt := None;
        should_end_session := Some false |}, []).
Proof. reflexivity. Qed.

Example handler_session_ended :
  handler SessionEndedRequest
  = (Responded
       {| output_speech := Some "Ah caray, no lo he entendido. Puedes repetirmelo una vez más!!";
          card := None;
          reprompt := Some "Ah caray, no lo he entendido. Puedes repetirmelo una vez más!!";
          should_end_session := Some false |}, [DispatchException]).
Proof. reflexivity. Qed.

Example broken_predicate_run :
  lambda_handler (mkSkillBuilder [BrokenPredicateHandler (mkException "boom")]
                    (exception_handlers sb)) LaunchRequest
  = (Responded
       {| output_speech := Some "Ah caray, no lo he entendido. Puedes repetirmelo una vez más!!";
          card := None;
          reprompt := Some "Ah caray, no lo he entendido. Puedes repetirmelo una vez más!!";
          should_end_session := Some false |}, [mkException "boom"]).
Proof. reflexivity. Qed.

Example failing_action_run :
  lambda_handler (mkSkillBuilder [FailingActionHandler (mkException "boom")]
                    (exception_handlers sb)) LaunchRequest
  = (Responded
       {| output_speech := Some "Ah caray, no lo he entendido. Puedes repetirmelo una vez más!!";
          card := Some (mkSimpleCard "Hola Mundo" "...");
          reprompt := Some "Ah caray, no lo he entendido. Puedes repetirmelo una vez más!!";
          should_end_session := Some false |}, [mkException "boom"]).
Proof. reflexivity. Qed.

(** ** The dispatcher: first match wins *)

Section FirstMatch.

Variable handler_input : HandlerInput.
Variable w : World.

Lemma get_request_handler_none : forall hs,
  Forall (declines handler_input w) hs ->
  run (get_request_handler hs handler_input) w = (inr None, w).
Proof.
  induction 1 as [| h hs Hh _ IH]; cbn [get_request_handler].
  - apply run_ret.
  - rewrite run_bind, Hh. exact IH.
Qed.

Lemma get_request_handler_first : forall pre h post,
  Forall (declines handler_input w) pre ->
  run (can_handle h handler_input) w = (inr true, w) ->
  run (get_request_handler (pre ++ h :: post) handler_input) w
  = (inr (Some h), w).
Proof.
  intros pre h post Hpre Hh.
  induction Hpre as [| g pre Hg _ IH]; cbn [app get_request_handler].
  - rewrite run_bind, Hh. apply run_ret.
  - rewrite run_bind, Hg. exact IH.
Qed.

Lemma dispatch_request_first : forall pre h post,
  Forall (declines handler_input w) pre ->
  run (can_handle h handler_input) w = (inr true, w) ->
  run (dispatch_request (pre ++ h :: post) handler_input) w
  = run (handle h handler_input) w.
Proof.
  intros pre h post Hpre Hh. unfold dispatch_request.
  rewrite run_bind, (get_request_handler_first pre h post Hpre Hh).
  reflexivity.
Qed.

Lemma dispatch_request_none : forall hs,
  Forall (declines handler_input w) hs ->
  run (dispatch_request hs handler_input) w = (inl DispatchException, w).
Proof.
  intros hs H. unfold dispatch_request.
  rewrite run_bind, (get_request_handler_none hs H). apply run_raise.
Qed.

End FirstMatch.

(** Without an error the exception handlers play no part. *)
Lemma dispatch_no_error : forall b handler_input w r w',
  run (dispatch_request (request_handlers b) handler_input) w = (inr r, w') ->
  run (dispatch b handler_input) w = (inr r, w').
Proof.
  intros b hi w r w' H. unfold dispatch. rewrite run_catch, H. reflexivity.
Qed.

(** ** The registered handlers *)

Lemma registered_request_handlers :
  request_handlers sb =
  [LaunchRequestHandler; HolaMundoIntentHandler;
   HelpIntentHandler; CancelAndStopIntentHandler].
Proof. reflexivity. Qed.

Lemma registered_exception_handlers :
  exception_handlers sb = [AllExceptionHandler].
Proof. reflexivity. Qed.

(** The predicates of hola.py neither fail nor touch the state. *)
Lemma registered_predicates_pure :
  Forall (fun h => forall handler_input w,
            exists b, run (can_handle h handler_input) w = (inr b, w))
         (request_handlers sb).
Proof.
  rewrite registered_request_handlers.
  repeat constructor; intros hi w; eexists; reflexivity.
Qed.

(** The action of a registered handler never fails, whatever the builder
    held before. *)
Lemma registered_actions_total :
  Forall (fun h => forall handler_input w,
            exists r w', run (handle h handler_input) w = (inr r, w'))
         (request_handlers sb).
Proof.
  rewrite registered_request_handlers.
  repeat constructor; intros hi w; do 2 eexists; reflexivity.
Qed.

Lemma is_intent_name_iff : forall n event,
  is_intent_name n (mkInput (mkEnvelope event)) = true <->
  exists intent, event = IntentRequest intent /\ name intent = n.
Proof.
  intros n event. unfold is_intent_name. cbn. split.
  - destruct event as [| intent | |]; try discriminate.
    intros H. apply String.eqb_eq in H. eauto.
  - intros [intent [-> <-]]. apply String.eqb_refl.
Qed.

Lemma is_intent_name_launch : forall n event,
  object_type event = "LaunchRequest" ->
  is_intent_name n (mkInput (mkEnvelope event)) = false.
Proof.
  intros n [| intent | | ty] H; try reflexivity. discriminate H.
Qed.

Lemma accepts_true : forall h handler_input w,
  (exists b, run (can_handle h handler_input) w = (inr b, w)) ->
  accepts h handler_input w = true ->
  run (can_handle h handler_input) w = (inr true, w).
Proof.
  intros h hi w [b Hb] H. unfold accepts in H. rewrite Hb in H.
  destruct b; [exact Hb | discriminate H].
Qed.

Lemma accepts_false : forall h handler_input w,
  (exists b, run (can_handle h handler_input) w = (inr b, w)) ->
  accepts h handler_input w = false ->
  run (can_handle h handler_input) w = (inr false, w).
Proof.
  intros h hi w [b Hb] H. unfold accepts in H. rewrite Hb in H.
  destruct b; [discriminate H | exact Hb].
Qed.

(** ** The claims *)

(** C1: for every incoming request the dispatcher goes through the registered
    handlers in registration order (launch, primary intent, help,
    cancel/stop): when the handlers registered before [h] all answer false
    and [h] answers true, the action of [h] is run on the new builder and
    its response is what the entry point returns, whatever comes after [h]. *)
Theorem dispatch_first_match_in_registration_order :
  forall (event : Request) (pre post : list AbstractRequestHandler)
         (h : AbstractRequestHandler),
    request_handlers sb = pre ++ h :: post ->
    Forall (fun g => accepts g (mkInput (mkEnvelope event)) fresh = false)
           pre ->
    accepts h (mkInput (mkEnvelope event)) fresh = true ->
    request_handlers sb =
      [LaunchRequestHandler; HolaMundoIntentHandler;
       HelpIntentHandler; CancelAndStopIntentHandler] /\
    exists r w',
      run (handle h (mkInput (mkEnvelope event))) fresh = (inr r, w') /\
      handler event = (Responded r, stdout w').
Proof.
  intros event pre post h Hsplit Hpre Hh.
  split; [reflexivity |].
  set (hi := mkInput (mkEnvelope event)) in *.
  pose proof registered_predicates_pure as Hpure.
  pose proof registered_actions_total as Htot.
  rewrite Hsplit in Hpure, Htot.
  apply Forall_app in Hpure as [Hpure_pre Hpure_h].
  apply Forall_cons_iff in Hpure_h as [Hpure_h _].
  apply Forall_app in Htot as [_ Htot].
  apply Forall_cons_iff in Htot as [Htot _].
  destruct (Htot hi fresh) as (r & w' & Hr).
  exists r, w'. split; [exact Hr |].
  assert (Hdecl : Forall (declines hi fresh) pre).
  { rewrite Forall_forall in *. intros g Hg.
    apply accepts_false; [apply Hpure_pre, Hg | apply Hpre, Hg]. }
  pose proof (accepts_true h hi fresh (Hpure_h hi fresh) Hh) as Hacc.
  unfold handler, lambda_handler. fold hi.
  rewrite (dispatch_no_error sb hi fresh r w'); [reflexivity |].
  rewrite Hsplit.
  rewrite (dispatch_request_first hi fresh pre h post Hdecl Hacc).
  exact Hr.
Qed.

Lemma dispatch_first_match_in_registration_order_witness :
  request_handlers sb
  = [LaunchRequestHandler] ++ HolaMundoIntentHandler
      :: [HelpIntentHandler; CancelAndStopIntentHandler] /\
  exists r w',
    run (handle HolaMundoIntentHandler
           (mkInput (mkEnvelope
              (IntentRequest (mkIntent "HolaMundoIntent" [])))))
        fresh = (inr r, w') /\
    handler (IntentRequest (mkIntent "HolaMundoIntent" []))
    = (Responded r, stdout w').
Proof.
  split; [reflexivity |].
  apply (dispatch_first_match_in_registration_order
           (IntentRequest (mkIntent "HolaMundoIntent" []))
           [LaunchRequestHandler]
           [HelpIntentHandler; CancelAndStopIntentHandler]
           HolaMundoIntentHandler).
  - reflexivity.
  - repeat constructor.
  - reflexivity.
Defined.

(** C2: whatever request handlers are registered next to the exception
    handler of hola.py, if evaluating a predicate or running an action raises
    an error, the entry point returns the exception handler's response: the
    fixed apology as speech and as reprompt, session left open; and the
    error is printed once, after whatever the request handlers had printed
    themselves.  The card is the one the builder held when the error was
    raised. *)
Theorem exception_path_apology_and_log :
  forall (hs : list AbstractRequestHandler) (event : Request)
         (e : PyException) (w' : World),
    run (dispatch_request hs (mkInput (mkEnvelope event))) fresh
    = (inl e, w') ->
    exists r,
      lambda_handler (mkSkillBuilder hs (exception_handlers sb)) event
      = (Responded r, stdout w' ++ [e]) /\
      output_speech r
      = Some "Ah caray, no lo he entendido. Puedes repetirmelo una vez más!!" /\
      reprompt r = output_speech r /\
      should_end_session r = Some false /\
      card r = card (response_builder w').
Proof.
  intros hs event e w' H.
  unfold lambda_handler, dispatch.
  cbn [request_handlers exception_handlers].
  rewrite run_catch, H.
  eexists. split; [reflexivity |]. repeat split.
Qed.

Lemma exception_path_apology_and_log_witness :
  exists r,
    lambda_handler
      (mkSkillBuilder [FailingActionHandler (mkException "boom")]
                      (exception_handlers sb)) LaunchRequest
    = (Responded r, [mkException "boom"]) /\
    output_speech r
    = Some "Ah caray, no lo he entendido. Puedes repetirmelo una vez más!!" /\
    reprompt r = output_speech r /\
    should_end_session r = Some false /\
    card r = Some (mkSimpleCard "Hola Mundo" "...").
Proof.
  apply (exception_path_apology_and_log
           [FailingActionHandler (mkException "boom")] LaunchRequest
           (mkException "boom")
           {| response_builder :=
                {| output_speech := None;
                   card := Some (mkSimpleCard "Hola Mundo" "...");
                   reprompt := None;
                   should_end_session := Some true |};
              stdout := [] |}).
  reflexivity.
Defined.

Lemma is_intent_name_other : forall n intent,
  name intent <> n ->
  is_intent_name n (mkInput (mkEnvelope (IntentRequest intent))) = false.
Proof.
  intros n intent H. unfold is_intent_name. cbn.
  apply String.eqb_neq, H.
Qed.

(** When every registered request handler declines, the dispatcher raises
    [DispatchException] with the builder untouched, and the exception
    handler answers it. *)
Lemma dispatch_unmatched : forall handler_input,
  Forall (declines handler_input fresh) (request_handlers sb) ->
  run (dispatch_request (request_handlers sb) handler_input) fresh
  = (inl DispatchException, fresh) /\
  lambda_handler sb (request (request_envelope handler_input))
  = (Responded
       {| output_speech := Some "Ah caray, no lo he entendido. Puedes repetirmelo una vez más!!";
          card := None;
          reprompt := Some "Ah caray, no lo he entendido. Puedes repetirmelo una vez más!!";
          should_end_session := Some false |}, [DispatchException]).
Proof.
  intros [[event]] H.
  pose proof (dispatch_request_none _ fresh _ H) as Hraise.
  split; [exact Hraise |].
  unfold lambda_handler, dispatch. cbn [request request_envelope].
  rewrite run_catch, Hraise. reflexivity.
Qed.

(** C3: an intent request whose name is none of the four the handlers look
    for is not dropped in silence.  No handler runs; the dispatcher raises
    [DispatchException], the explicit "no handler" error; the exception
    handler prints that error, once, and the entry point returns its apology:
    neither an uncaught error nor an empty response. *)
Theorem unmatched_intent_reports_unhandled :
  forall intent : Intent,
    name intent <> "HolaMundoIntent" ->
    name intent <> "AMAZON.HelpIntent" ->
    name intent <> "AMAZON.CancelIntent" ->
    name intent <> "AMAZON.StopIntent" ->
    run (dispatch_request (request_handlers sb)
           (mkInput (mkEnvelope (IntentRequest intent)))) fresh
    = (inl DispatchException, fresh) /\
    handler (IntentRequest intent)
    = (Responded
         {| output_speech := Some "Ah caray, no lo he entendido. Puedes repetirmelo una vez más!!";
            card := None;
            reprompt := Some "Ah caray, no lo he entendido. Puedes repetirmelo una vez más!!";
            should_end_session := Some false |}, [DispatchException]).
Proof.
  intros intent Hhola Hhelp Hcancel Hstop.
  set (hi := mkInput (mkEnvelope (IntentRequest intent))).
  apply (dispatch_unmatched hi).
  rewrite registered_request_handlers.
  repeat apply Forall_cons; [.. | apply Forall_nil];
    unfold declines; cbn [can_handle LaunchRequestHandler
      HolaMundoIntentHandler HelpIntentHandler CancelAndStopIntentHandler];
    rewrite run_ret; subst hi.
  - reflexivity.
  - rewrite (is_intent_name_other _ intent Hhola). reflexivity.
  - rewrite (is_intent_name_other _ intent Hhelp). reflexivity.
  - rewrite (is_intent_name_other _ intent Hcancel),
            (is_intent_name_other _ intent Hstop). reflexivity.
Qed.

Lemma unmatched_intent_reports_unhandled_witness :
  run (dispatch_request (request_handlers sb)
         (mkInput (mkEnvelope
            (IntentRequest (mkIntent "AMAZON.FallbackIntent" []))))) fresh
  = (inl DispatchException, fresh) /\
  handler (IntentRequest (mkIntent "AMAZON.FallbackIntent" []))
  = (Responded
       {| output_speech := Some "Ah caray, no lo he entendido. Puedes repetirmelo una vez más!!";
          card := None;
          reprompt := Some "Ah caray, no lo he entendido. Puedes repetirmelo una vez más!!";
          should_end_session := Some false |}, [DispatchException]).
Proof.
  apply (unmatched_intent_reports_unhandled
           (mkIntent "AMAZON.FallbackIntent" []));
    cbn; discriminate.
Defined.

(** C4: a request whose type is "LaunchRequest" gets the fixed greeting as
    speech, should-end-session false, and a card titled "Hola Mundo" whose
    body is the greeting; no reprompt is set and nothing is printed. *)
Theorem launch_request_greeting :
  forall event : Request,
    object_type event = "LaunchRequest" ->
    handler event =
    (Responded
       {| output_speech := Some "Hola, Bienvenido al Kit de Skills de la Alexa, ahora puedes decir Hola Mundo!";
          card := Some (mkSimpleCard "Hola Mundo" "Hola, Bienvenido al Kit de Skills de la Alexa, ahora puedes decir Hola Mundo!");
          reprompt := None;
          should_end_session := Some false |}, []).
Proof.
  intros event H.
  destruct event as [| intent | | ty]; cbn in H; try discriminate H.
  - reflexivity.
  - subst ty. reflexivity.
Qed.

Lemma launch_request_greeting_witness :
  object_type LaunchRequest = "LaunchRequest" /\
  handler LaunchRequest =
  (Responded
     {| output_speech := Some "Hola, Bienvenido al Kit de Skills de la Alexa, ahora puedes decir Hola Mundo!";
        card := Some (mkSimpleCard "Hola Mundo" "Hola, Bienvenido al Kit de Skills de la Alexa, ahora puedes decir Hola Mundo!");
        reprompt := None;
        should_end_session := Some false |}, []).
Proof.
  split; [reflexivity |].
  apply (launch_request_greeting LaunchRequest). reflexivity.
Defined.

(** C5: an intent request named "HolaMundoIntent", whatever its slots, gets
    a response with should-end-session true whose speech is the fixed text
    of the primary handler. *)
Theorem hola_mundo_intent_response :
  forall intent : Intent,
    name intent = "HolaMundoIntent" ->
    exists r,
      handler (IntentRequest intent) = (Responded r, []) /\
      should_end_session r = Some true /\
      output_speech r
      = Some "El mundo es un lugar maravilloso, lástima que los humanos no lo cuidan como debería ser".
Proof.
  intros [n sl] H. cbn in H. subst n.
  eexists. split; [reflexivity |]. split; reflexivity.
Qed.

Lemma hola_mundo_intent_response_witness :
  exists r,
    handler (IntentRequest (mkIntent "HolaMundoIntent" [("who", "mundo")]))
    = (Responded r, []) /\
    should_end_session r = Some true /\
    output_speech r
    = Some "El mundo es un lugar maravilloso, lástima que los humanos no lo cuidan como debería ser".
Proof.
  apply (hola_mundo_intent_response
           (mkIntent "HolaMundoIntent" [("who", "mundo")])).
  reflexivity.
Defined.

(** C6: an intent request named "AMAZON.HelpIntent" gets a response whose
    reprompt is set and equal to its speech, the fixed help text. *)
Theorem help_intent_reprompt_is_speech :
  forall intent : Intent,
    name intent = "AMAZON.HelpIntent" ->
    exists r,
      handler (IntentRequest intent) = (Responded r, []) /\
      reprompt r = output_speech r /\
      output_speech r
      = Some "Puedes decirme Hola Mundo y te responderé que pienso!".
Proof.
  intros [n sl] H. cbn in H. subst n.
  eexists. split; [reflexivity |]. split; reflexivity.
Qed.

Lemma help_intent_reprompt_is_speech_witness :
  exists r,
    handler (IntentRequest (mkIntent "AMAZON.HelpIntent" []))
    = (Responded r, []) /\
    reprompt r = output_speech r /\
    output_speech r
    = Some "Puedes decirme Hola Mundo y te responderé que pienso!".
Proof.
  apply (help_intent_reprompt_is_speech (mkIntent "AMAZON.HelpIntent" [])).
  reflexivity.
Defined.

(** C7: an intent request named "AMAZON.CancelIntent" and one named
    "AMAZON.StopIntent" get the same output: the fixed farewell as speech, a
    card titled "Hola Mundo" and should-end-session true. *)
Theorem cancel_and_stop_same_output :
  forall cancel stop : Intent,
    name cancel = "AMAZON.CancelIntent" ->
    name stop = "AMAZON.StopIntent" ->
    handler (IntentRequest cancel) = handler (IntentRequest stop) /\
    handler (IntentRequest cancel) =
    (Responded
       {| output_speech := Some "Nos vemos luego, acuerdate de cuidar al mundo para que siga siendo un lugar maravilloso!";
          card := Some (mkSimpleCard "Hola Mundo" "Nos vemos luego, acuerdate de cuidar al mundo para que siga siendo un lugar maravilloso!");
          reprompt := None;
          should_end_session := Some true |}, []).
Proof.
  intros [n1 sl1] [n2 sl2] H1 H2. cbn in H1, H2. subst n1 n2.
  split; reflexivity.
Qed.

Lemma cancel_and_stop_same_output_witness :
  handler (IntentRequest (mkIntent "AMAZON.CancelIntent" []))
  = handler (IntentRequest (mkIntent "AMAZON.StopIntent" [("x", "y")])) /\
  handler (IntentRequest (mkIntent "AMAZON.CancelIntent" [])) =
  (Responded
     {| output_speech := Some "Nos vemos luego, acuerdate de cuidar al mundo para que siga siendo un lugar maravilloso!";
        card := Some (mkSimpleCard "Hola Mundo" "Nos vemos luego, acuerdate de cuidar al mundo para que siga siendo un lugar maravilloso!");
        reprompt := None;
        should_end_session := Some true |}, []).
Proof.
  apply (cancel_and_stop_same_output
           (mkIntent "AMAZON.CancelIntent" [])
           (mkIntent "AMAZON.StopIntent" [("x", "y")]));
    reflexivity.
Defined.

(** C8: exactly one exception handler is registered, [AllExceptionHandler];
    its predicate answers true for every request, error and state, without
    failing; so every error finds its handler and gets a response. *)
Theorem one_catch_all_exception_handler :
  exception_handlers sb = [AllExceptionHandler] /\
  length (exception_handlers sb) = 1 /\
  (forall (handler_input : HandlerInput) (e : PyException) (w : World),
     run (exc_can_handle AllExceptionHandler handler_input e) w
     = (inr true, w)) /\
  (forall (handler_input : HandlerInput) (e : PyException) (w : World),
     exists r w',
       run (handle_exception (exception_handlers sb) handler_input e) w
       = (inr r, w')).
Proof.
  repeat split.
  intros hi e w. do 2 eexists. reflexivity.
Qed.

Lemma accepts_registered : forall handler_input w,
  map (fun h => accepts h handler_input w) (request_handlers sb) =
  [is_request_type "LaunchRequest" handler_input;
   is_intent_name "HolaMundoIntent" handler_input;
   is_intent_name "AMAZON.HelpIntent" handler_input;
   is_intent_name "AMAZON.CancelIntent" handler_input
   || is_intent_name "AMAZON.StopIntent" handler_input].
Proof.
  intros hi w. rewrite registered_request_handlers.
  unfold accepts. cbn [map can_handle LaunchRequestHandler
    HolaMundoIntentHandler HelpIntentHandler CancelAndStopIntentHandler].
  rewrite !run_ret. cbn [fst].
  assert (Hid : forall b : bool, (if b then true else false) = b)
    by (intros []; reflexivity).
  rewrite !Hid. reflexivity.
Qed.

Lemma length_filter_map : forall (A : Type) (f : A -> bool) (l : list A),
  length (filter f l) = length (filter (fun b => b) (map f l)).
Proof.
  intros A f l. induction l as [| a l IH]; cbn; [reflexivity |].
  destruct (f a); cbn; rewrite IH; reflexivity.
Qed.

(** C9: for every request (and every state) at most one of the four
    registered request handlers has a predicate that answers true. *)
Theorem registered_predicates_exclusive :
  forall (handler_input : HandlerInput) (w : World),
    length (filter (fun h => accepts h handler_input w)
                   (request_handlers sb)) <= 1.
Proof.
  intros hi w. rewrite length_filter_map, accepts_registered.
  destruct hi as [[event]].
  destruct event as [| intent | | ty]; unfold is_intent_name, is_request_type;
    cbn [request request_envelope object_type].
  - cbn. lia.
  - destruct (String.eqb_spec (name intent) "HolaMundoIntent") as [E | _];
      [rewrite E; cbn; lia |].
    destruct (String.eqb_spec (name intent) "AMAZON.HelpIntent") as [E | _];
      [rewrite E; cbn; lia |].
    destruct (String.eqb (name intent) "AMAZON.CancelIntent"
              || String.eqb (name intent) "AMAZON.StopIntent"); cbn; lia.
  - cbn. lia.
  - destruct (ty =? "LaunchRequest")%string; cbn; lia.
Qed.

(** ** Predicates that neither fail nor write: the dispatcher is a [find] *)

Lemma get_request_handler_find : forall hs handler_input w,
  Forall (fun h => exists b,
            run (can_handle h handler_input) w = (inr b, w)) hs ->
  run (get_request_handler hs handler_input) w
  = (inr (find (fun h => accepts h handler_input w) hs), w).
Proof.
  intros hs hi w H.
  induction H as [| h hs [b Hb] _ IH]; cbn [get_request_handler find].
  - apply run_ret.
  - rewrite run_bind, Hb. unfold accepts at 1. rewrite Hb. cbn [fst].
    destruct b; [apply run_ret | exact IH].
Qed.

Lemma dispatch_request_find : forall hs handler_input w,
  Forall (fun h => exists b,
            run (can_handle h handler_input) w = (inr b, w)) hs ->
  run (dispatch_request hs handler_input) w
  = match find (fun h => accepts h handler_input w) hs with
    | Some h => run (handle h handler_input) w
    | None => (inl DispatchException, w)
    end.
Proof.
  intros hs hi w H. unfold dispatch_request.
  rewrite run_bind, (get_request_handler_find hs hi w H).
  destruct (find (fun h => accepts h hi w) hs) as [h |];
    [reflexivity | apply run_raise].
Qed.

Lemma registered_predicates_pure_at : forall handler_input w,
  Forall (fun h => exists b,
            run (can_handle h handler_input) w = (inr b, w))
         (request_handlers sb).
Proof.
  intros hi w. pose proof registered_predicates_pure as H.
  rewrite Forall_forall in *. intros h Hh. apply (H h Hh).
Qed.

(** ** Lists with at most one element passing a test *)

Lemma filter_length_perm : forall (A : Type) (f : A -> bool) (l l' : list A),
  Permutation l l' -> length (filter f l) = length (filter f l').
Proof.
  intros A f l l' H.
  induction H as [| x l l' _ IH | x y l | l l' l'' _ IH1 _ IH2]; cbn.
  - reflexivity.
  - destruct (f x); cbn; rewrite IH; reflexivity.
  - destruct (f x), (f y); reflexivity.
  - rewrite IH1. exact IH2.
Qed.

Lemma find_perm_unique : forall (A : Type) (f : A -> bool) (l l' : list A),
  Permutation l l' ->
  length (filter f l) <= 1 ->
  find f l = find f l'.
Proof.
  intros A f l l' H.
  induction H as [| x l l' _ IH | x y l | l l' l'' H1 IH1 _ IH2];
    cbn; intros Hlen.
  - reflexivity.
  - destruct (f x); [reflexivity |]. apply IH, Hlen.
  - destruct (f x), (f y); cbn in Hlen; try reflexivity. lia.
  - rewrite IH1 by exact Hlen. apply IH2.
    rewrite <- (filter_length_perm A f l l' H1). exact Hlen.
Qed.

(** ** What each registered predicate computes *)

Lemma accepts_each : forall handler_input w,
  accepts LaunchRequestHandler handler_input w
  = is_request_type "LaunchRequest" handler_input /\
  accepts HolaMundoIntentHandler handler_input w
  = is_intent_name "HolaMundoIntent" handler_input /\
  accepts HelpIntentHandler handler_input w
  = is_intent_name "AMAZON.HelpIntent" handler_input /\
  accepts CancelAndStopIntentHandler handler_input w
  = (is_intent_name "AMAZON.CancelIntent" handler_input
     || is_intent_name "AMAZON.StopIntent" handler_input).
Proof.
  intros hi w. pose proof (accepts_registered hi w) as H.
  rewrite registered_request_handlers in H. cbn [map] in H.
  injection H as H1 H2 H3 H4. repeat split; assumption.
Qed.

Lemma is_request_type_iff : forall t event,
  is_request_type t (mkInput (mkEnvelope event)) = true <->
  object_type event = t.
Proof. intros t event. unfold is_request_type. cbn. apply String.eqb_eq. Qed.

(** The four predicates seen together: their disjunction is [served]. *)
Lemma some_predicate_iff_served : forall event,
  (is_request_type "LaunchRequest" (mkInput (mkEnvelope event))
   || is_intent_name "HolaMundoIntent" (mkInput (mkEnvelope event))
   || is_intent_name "AMAZON.HelpIntent" (mkInput (mkEnvelope event))
   || (is_intent_name "AMAZON.CancelIntent" (mkInput (mkEnvelope event))
       || is_intent_name "AMAZON.StopIntent" (mkInput (mkEnvelope event))))
  = true <-> served event.
Proof.
  intros event. unfold served.
  rewrite !orb_true_iff, is_request_type_iff, !is_intent_name_iff.
  split.
  - intros [[[H | H] | H] | [H | H]]; [left; exact H | right ..];
      destruct H as [intent [-> Hn]]; exists intent;
      (split; [reflexivity |]); rewrite Hn; cbn; tauto.
  - intros [H | [intent [-> Hn]]]; [tauto |].
    cbn in Hn.
    destruct Hn as [Hn | [Hn | [Hn | [Hn | []]]]]; symmetry in Hn; eauto 8.
Qed.

(** ** The entry point as a decision table *)

Lemma handler_table : forall event,
  handler event =
  let hi := mkInput (mkEnvelope event) in
  let act h := finish (run (handle h hi) fresh) in
  if is_request_type "LaunchRequest" hi then act LaunchRequestHandler
  else if is_intent_name "HolaMundoIntent" hi then act HolaMundoIntentHandler
  else if is_intent_name "AMAZON.HelpIntent" hi then act HelpIntentHandler
  else if is_intent_name "AMAZON.CancelIntent" hi
          || is_intent_name "AMAZON.StopIntent" hi
       then act CancelAndStopIntentHandler
  else finish (run (exc_handle AllExceptionHandler hi DispatchException)
                   fresh).
Proof.
  intros event. cbv zeta.
  set (hi := mkInput (mkEnvelope event)).
  unfold handler, lambda_handler, dispatch. fold hi.
  rewrite run_catch.
  rewrite (dispatch_request_find _ hi fresh
             (registered_predicates_pure_at hi fresh)).
  rewrite registered_request_handlers. cbn [find].
  destruct (accepts_each hi fresh) as (-> & -> & -> & ->).
  destruct (is_request_type "LaunchRequest" hi); [reflexivity |].
  destruct (is_intent_name "HolaMundoIntent" hi); [reflexivity |].
  destruct (is_intent_name "AMAZON.HelpIntent" hi); [reflexivity |].
  destruct (is_intent_name "AMAZON.CancelIntent" hi
            || is_intent_name "AMAZON.StopIntent" hi); reflexivity.
Qed.

(** Handlers registered after one that accepts are never reached. *)
Lemma get_request_handler_app : forall hs more handler_input w h,
  Forall (fun g => exists b,
            run (can_handle g handler_input) w = (inr b, w)) hs ->
  find (fun g => accepts g handler_input w) hs = Some h ->
  run (get_request_handler (hs ++ more) handler_input) w
  = (inr (Some h), w).
Proof.
  intros hs more hi w h Hpure.
  induction Hpure as [| g hs [b Hb] _ IH];
    cbn [app get_request_handler find]; intros Hfind.
  - discriminate Hfind.
  - rewrite run_bind, Hb.
    unfold accepts at 1 in Hfind. rewrite Hb in Hfind. cbn [fst] in Hfind.
    destruct b.
    + injection Hfind as ->. apply run_ret.
    + apply IH, Hfind.
Qed.

Lemma dispatch_request_app : forall hs more handler_input w h,
  Forall (fun g => exists b,
            run (can_handle g handler_input) w = (inr b, w)) hs ->
  find (fun g => accepts g handler_input w) hs = Some h ->
  run (dispatch_request (hs ++ more) handler_input) w
  = run (dispatch_request hs handler_input) w.
Proof.
  intros hs more hi w h Hpure Hfind. unfold dispatch_request.
  rewrite !run_bind.
  rewrite (get_request_handler_app hs more hi w h Hpure Hfind).
  rewrite (get_request_handler_find hs hi w Hpure), Hfind.
  reflexivity.
Qed.

(** C10: each of the four registered request handlers, whatever the builder
    held before, returns a response with a card titled "Hola Mundo" whose
    body is the response's speech; so does the entry point on every request
    one of them serves; the exception handler sets no card: on a new builder
    its response has none, and that is what the entry point returns on the
    requests no handler serves. *)
Theorem request_handlers_card_matches_speech :
  Forall (fun h =>
            forall (handler_input : HandlerInput) (w : World),
            exists r w' t,
              run (handle h handler_input) w = (inr r, w') /\
              output_speech r = Some t /\
              card r = Some (mkSimpleCard "Hola Mundo" t))
         (request_handlers sb) /\
  (forall event : Request,
     exists r,
       fst (handler event) = Responded r /\
       (served event ->
        exists t,
          output_speech r = Some t /\
          card r = Some (mkSimpleCard "Hola Mundo" t)) /\
       (~ served event -> card r = None)) /\
  (forall (handler_input : HandlerInput) (e : PyException)
          (out : list PyException),
     exists r w',
       run (exc_handle AllExceptionHandler handler_input e)
           (mkWorld ResponseFactory.new out) = (inr r, w') /\
       card r = None).
Proof.
  split; [| split].
  - rewrite registered_request_handlers.
    repeat constructor; intros hi w; do 3 eexists;
      (split; [reflexivity | split; reflexivity]).
  - intros event. rewrite handler_table. cbv zeta.
    generalize (some_predicate_iff_served event).
    destruct (is_request_type "LaunchRequest" _).
    { intros Hs. eexists. split; [reflexivity |]. split.
      - intros _. eexists. split; reflexivity.
      - intros Hn. exfalso. apply Hn, Hs. reflexivity. }
    destruct (is_intent_name "HolaMundoIntent" _).
    { intros Hs. eexists. split; [reflexivity |]. split.
      - intros _. eexists. split; reflexivity.
      - intros Hn. exfalso. apply Hn, Hs. reflexivity. }
    destruct (is_intent_name "AMAZON.HelpIntent" _).
    { intros Hs. eexists. split; [reflexivity |]. split.
      - intros _. eexists. split; reflexivity.
      - intros Hn. exfalso. apply Hn, Hs. reflexivity. }
    destruct (is_intent_name "AMAZON.CancelIntent" _
              || is_intent_name "AMAZON.StopIntent" _).
    { intros Hs. eexists. split; [reflexivity |]. split.
      - intros _. eexists. split; reflexivity.
      - intros Hn. exfalso. apply Hn, Hs. reflexivity. }
    intros Hs. eexists. split; [reflexivity |]. split.
    + intros H. apply Hs in H. discriminate H.
    + intros _. reflexivity.
  - intros hi e out. do 2 eexists. split; reflexivity.
Qed.

(** ** Further properties of the handlers *)

Lemma registered_at_most_one : forall handler_input w,
  length (filter (fun h => accepts h handler_input w) (request_handlers sb))
  <= 1.
Proof.
  intros hi w. rewrite registered_request_handlers. cbn [filter].
  destruct (accepts_each hi w) as (-> & -> & -> & ->).
  destruct hi as [[event]].
  destruct event as [| intent | | ty]; unfold is_request_type, is_intent_name;
    cbn [request request_envelope object_type].
  - vm_compute. lia.
  - change (String.eqb "IntentRequest" "LaunchRequest") with false.
    cbv iota.
    destruct (String.eqb_spec (name intent) "HolaMundoIntent") as [-> | _];
      [vm_compute; lia |].
    destruct (String.eqb_spec (name intent) "AMAZON.HelpIntent") as [-> | _];
      [vm_compute; lia |].
    destruct (String.eqb (name intent) "AMAZON.CancelIntent"
              || String.eqb (name intent) "AMAZON.StopIntent");
      cbn [length]; lia.
  - vm_compute. lia.
  - destruct (String.eqb ty "LaunchRequest"); cbn [length orb]; lia.
Qed.

(** X1: some registered request handler accepts a request exactly when the
    request is of type "LaunchRequest" or is an intent request named
    "HolaMundoIntent", "AMAZON.HelpIntent", "AMAZON.CancelIntent" or
    "AMAZON.StopIntent"; the state plays no part. *)
Theorem registered_handlers_accept_iff_served :
  forall (event : Request) (w : World),
    (exists h, In h (request_handlers sb) /\
               accepts h (mkInput (mkEnvelope event)) w = true)
    <-> served event.
Proof.
  intros event w. rewrite <- some_predicate_iff_served.
  set (hi := mkInput (mkEnvelope event)).
  destruct (accepts_each hi w) as (H1 & H2 & H3 & H4).
  rewrite registered_request_handlers. split.
  - intros (h & Hin & Hacc). cbn [In] in Hin.
    destruct Hin as [<- | [<- | [<- | [<- | []]]]];
      rewrite ?H1, ?H2, ?H3, ?H4 in Hacc; rewrite Hacc;
      rewrite ?orb_true_r; reflexivity.
  - intros H. rewrite !orb_true_iff in H.
    destruct H as [[[H | H] | H] | H].
    + exists LaunchRequestHandler. rewrite H1. cbn [In]. tauto.
    + exists HolaMundoIntentHandler. rewrite H2. cbn [In]. tauto.
    + exists HelpIntentHandler. rewrite H3. cbn [In]. tauto.
    + exists CancelAndStopIntentHandler. rewrite H4, orb_true_iff.
      cbn [In]. tauto.
Qed.

(** X2: a request no handler is written for, whatever its type (a
    SessionEndedRequest, say), gets the exception handler's apology as speech
    and reprompt, without a card and with the session left open; the one
    thing printed is the dispatcher's "no handler" error. *)
Theorem unserved_request_gets_apology :
  forall event : Request,
    ~ served event ->
    handler event
    = (Responded
         {| output_speech := Some "Ah caray, no lo he entendido. Puedes repetirmelo una vez más!!";
            card := None;
            reprompt := Some "Ah caray, no lo he entendido. Puedes repetirmelo una vez más!!";
            should_end_session := Some false |}, [DispatchException]).
Proof.
  intros event Hn. rewrite handler_table. cbv zeta.
  revert Hn. rewrite <- some_predicate_iff_served.
  destruct (is_request_type "LaunchRequest" _);
    [intros Hn; exfalso; apply Hn; reflexivity |].
  destruct (is_intent_name "HolaMundoIntent" _);
    [intros Hn; exfalso; apply Hn; reflexivity |].
  destruct (is_intent_name "AMAZON.HelpIntent" _);
    [intros Hn; exfalso; apply Hn; reflexivity |].
  destruct (is_intent_name "AMAZON.CancelIntent" _
            || is_intent_name "AMAZON.StopIntent" _);
    [intros Hn; exfalso; apply Hn; reflexivity |].
  intros _. reflexivity.
Qed.

Lemma unserved_request_gets_apology_witness :
  ~ served SessionEndedRequest /\
  handler SessionEndedRequest
  = (Responded
       {| output_speech := Some "Ah caray, no lo he entendido. Puedes repetirmelo una vez más!!";
          card := None;
          reprompt := Some "Ah caray, no lo he entendido. Puedes repetirmelo una vez más!!";
          should_end_session := Some false |}, [DispatchException]).
Proof.
  assert (Hn : ~ served SessionEndedRequest).
  { intros [H | (intent & H & _)]; discriminate H. }
  split; [exact Hn |].
  exact (unserved_request_gets_apology SessionEndedRequest Hn).
Defined.

(** X3: the registration order of the four request handlers does not matter:
    registered in any other order, next to the same exception handler, they
    give an entry point that returns the same result on every request. *)
Theorem registration_order_irrelevant :
  forall (hs : list AbstractRequestHandler),
    Permutation hs (request_handlers sb) ->
    forall event : Request,
      lambda_handler (mkSkillBuilder hs (exception_handlers sb)) event
      = handler event.
Proof.
  intros hs Hperm event.
  set (hi := mkInput (mkEnvelope event)).
  assert (Hpure : Forall (fun h => exists b,
                    run (can_handle h hi) fresh = (inr b, fresh)) hs).
  { pose proof (registered_predicates_pure_at hi fresh) as H.
    rewrite Forall_forall in *. intros h Hh.
    apply H, (Permutation_in h Hperm Hh). }
  unfold handler, lambda_handler, dispatch. fold hi.
  cbn [request_handlers exception_handlers].
  rewrite !run_catch.
  rewrite (dispatch_request_find hs hi fresh Hpure).
  rewrite (dispatch_request_find _ hi fresh
             (registered_predicates_pure_at hi fresh)).
  rewrite (find_perm_unique _ (fun h => accepts h hi fresh)
             (request_handlers sb) hs (Permutation_sym Hperm)
             (registered_at_most_one hi fresh)).
  reflexivity.
Qed.

Lemma registration_order_irrelevant_witness :
  lambda_handler
    (mkSkillBuilder
       [CancelAndStopIntentHandler; HelpIntentHandler;
        HolaMundoIntentHandler; LaunchRequestHandler]
       (exception_handlers sb))
    (IntentRequest (mkIntent "AMAZON.StopIntent" []))
  = handler (IntentRequest (mkIntent "AMAZON.StopIntent" [])).
Proof.
  apply (registration_order_irrelevant
           [CancelAndStopIntentHandler; HelpIntentHandler;
            HolaMundoIntentHandler; LaunchRequestHandler]).
  exact (Permutation_sym
           (Permutation_rev
              [LaunchRequestHandler; HolaMundoIntentHandler;
               HelpIntentHandler; CancelAndStopIntentHandler])).
Defined.

(** X4: the handlers never read the slots: two intent requests with the same
    intent name get the same result. *)
Theorem slots_are_ignored :
  forall i1 i2 : Intent,
    name i1 = name i2 ->
    handler (IntentRequest i1) = handler (IntentRequest i2).
Proof.
  intros [n1 sl1] [n2 sl2] H. cbn in H. subst n2.
  rewrite !handler_table. reflexivity.
Qed.

Lemma slots_are_ignored_witness :
  handler (IntentRequest (mkIntent "HolaMundoIntent" []))
  = handler (IntentRequest
               (mkIntent "HolaMundoIntent" [("planeta", "Tierra")])).
Proof.
  apply (slots_are_ignored
           (mkIntent "HolaMundoIntent" [])
           (mkIntent "HolaMundoIntent" [("planeta", "Tierra")])).
  reflexivity.
Defined.

(** X5: every response the entry point returns has a speech and an explicit
    should-end-session flag; when it has a reprompt, the reprompt is the
    speech itself and the session is left open. *)
Theorem responses_well_formed :
  forall (event : Request) (r : Response) (out : list PyException),
    handler event = (Responded r, out) ->
    output_speech r <> None /\
    should_end_session r <> None /\
    (forall t, reprompt r = Some t ->
               output_speech r = Some t /\ should_end_session r = Some false).
Proof.
  intros event r out. rewrite handler_table. cbv zeta.
  destruct (is_request_type "LaunchRequest" _);
    [cbn; intros H; injection H as <- <-; cbn;
     repeat split; discriminate |].
  destruct (is_intent_name "HolaMundoIntent" _);
    [cbn; intros H; injection H as <- <-; cbn;
     repeat split; discriminate |].
  destruct (is_intent_name "AMAZON.HelpIntent" _);
    [cbn; intros H; injection H as <- <-; cbn;
     repeat split; try discriminate; congruence |].
  destruct (is_intent_name "AMAZON.CancelIntent" _
            || is_intent_name "AMAZON.StopIntent" _);
    [cbn; intros H; injection H as <- <-; cbn;
     repeat split; discriminate |].
  cbn. intros H. injection H as <- <-. cbn.
  repeat split; try discriminate; congruence.
Qed.

Lemma responses_well_formed_witness :
  exists r,
    handler (IntentRequest (mkIntent "AMAZON.HelpIntent" []))
    = (Responded r, []) /\
    output_speech r <> None /\
    should_end_session r <> None /\
    (forall t, reprompt r = Some t ->
               output_speech r = Some t /\ should_end_session r = Some false).
Proof.
  eexists. split; [reflexivity |].
  apply (responses_well_formed
           (IntentRequest (mkIntent "AMAZON.HelpIntent" [])) _ []).
  reflexivity.
Defined.

(** X6: a response of the entry point ends the session exactly when the
    request is an intent request named "HolaMundoIntent",
    "AMAZON.CancelIntent" or "AMAZON.StopIntent"; after a launch or a help
    request the session stays open. *)
Theorem session_ends_iff_final_intent :
  forall (event : Request) (r : Response) (out : list PyException),
    handler event = (Responded r, out) ->
    (should_end_session r = Some true <->
     exists intent,
       event = IntentRequest intent /\
       In (name intent)
          ["HolaMundoIntent"; "AMAZON.CancelIntent"; "AMAZON.StopIntent"]).
Proof.
  intros event r out H.
  destruct event as [| [n sl] | | ty].
  - cbv in H. injection H as <- <-.
    split; [discriminate | intros (i & Hi & _); discriminate Hi].
  - rewrite handler_table in H. cbv zeta in H.
    unfold is_request_type, is_intent_name in H.
    cbn [request request_envelope object_type name] in H.
    change (String.eqb "IntentRequest" "LaunchRequest") with false in H.
    cbv iota in H.
    destruct (String.eqb_spec n "HolaMundoIntent") as [-> | N1].
    { cbv in H. injection H as <- <-.
      split; [intros _ | reflexivity].
      eexists. split; [reflexivity |]. cbn. tauto. }
    destruct (String.eqb_spec n "AMAZON.HelpIntent") as [-> | N2].
    { cbv in H. injection H as <- <-.
      split; [discriminate |].
      intros (i & Hi & Hin). injection Hi as <-. cbn in Hin.
      destruct Hin as [Hn | [Hn | [Hn | []]]]; discriminate Hn. }
    destruct (String.eqb_spec n "AMAZON.CancelIntent") as [-> | N3].
    { cbv in H. injection H as <- <-.
      split; [intros _ | reflexivity].
      eexists. split; [reflexivity |]. cbn. tauto. }
    destruct (String.eqb_spec n "AMAZON.StopIntent") as [-> | N4].
    { cbv in H. injection H as <- <-.
      split; [intros _ | reflexivity].
      eexists. split; [reflexivity |]. cbn. tauto. }
    cbv in H. injection H as <- <-.
    split; [discriminate |].
    intros (i & Hi & Hin). injection Hi as <-. cbn in Hin.
    destruct Hin as [Hn | [Hn | [Hn | []]]]; symmetry in Hn; contradiction.
  - cbv in H. injection H as <- <-.
    split; [discriminate | intros (i & Hi & _); discriminate Hi].
  - rewrite handler_table in H. cbv zeta in H.
    unfold is_request_type, is_intent_name in H.
    cbn [request request_envelope object_type] in H.
    destruct (String.eqb ty "LaunchRequest");
      cbv in H; injection H as <- <-;
      (split; [discriminate | intros (i & Hi & _); discriminate Hi]).
Qed.

Lemma session_ends_iff_final_intent_witness :
  exists r,
    handler LaunchRequest = (Responded r, []) /\
    (should_end_session r = Some true <->
     exists intent,
       LaunchRequest = IntentRequest intent /\
       In (name intent)
          ["HolaMundoIntent"; "AMAZON.CancelIntent"; "AMAZON.StopIntent"]).
Proof.
  eexists. split; [reflexivity |].
  apply (session_ends_iff_final_intent LaunchRequest _ []).
  reflexivity.
Defined.

Lemma served_has_handler : forall event w,
  served event ->
  exists h,
    find (fun g => accepts g (mkInput (mkEnvelope event)) w)
         (request_handlers sb) = Some h.
Proof.
  intros event w Hs. apply some_predicate_iff_served in Hs.
  set (hi := mkInput (mkEnvelope event)) in *.
  destruct (find (fun g => accepts g hi w) (request_handlers sb))
    as [h |] eqn:F; [eauto |].
  exfalso.
  pose proof (find_none _ _ F) as Hnone. cbv beta in Hnone.
  destruct (accepts_each hi w) as (H1 & H2 & H3 & H4).
  rewrite <- H1, <- H2, <- H3, <- H4 in Hs.
  rewrite registered_request_handlers in Hnone.
  rewrite !Hnone in Hs by (cbn [In]; tauto).
  discriminate Hs.
Qed.

Lemma request_handlers_fold_add : forall more b,
  request_handlers
    (fold_left (fun acc h => add_request_handler h acc) more b)
  = request_handlers b ++ more /\
  exception_handlers
    (fold_left (fun acc h => add_request_handler h acc) more b)
  = exception_handlers b.
Proof.
  induction more as [| h more IH]; intros b; cbn [fold_left].
  - rewrite app_nil_r. split; reflexivity.
  - destruct (IH (add_request_handler h b)) as [-> ->].
    cbn [add_request_handler request_handlers exception_handlers].
    rewrite <- app_assoc. split; reflexivity.
Qed.

(** X7: request handlers registered later on [sb], whatever they do, change
    nothing for the requests hola.py already serves: the entry point built
    afterwards returns what [handler] returns. *)
Theorem later_registrations_keep_served :
  forall (more : list AbstractRequestHandler) (event : Request),
    served event ->
    lambda_handler
      (fold_left (fun acc h => add_request_handler h acc) more sb) event
    = handler event.
Proof.
  intros more event Hs.
  set (hi := mkInput (mkEnvelope event)).
  destruct (served_has_handler event fresh Hs) as [h Hfind]. fold hi in Hfind.
  unfold handler, lambda_handler, dispatch. fold hi.
  destruct (request_handlers_fold_add more sb) as [-> ->].
  rewrite !run_catch.
  rewrite (dispatch_request_app (request_handlers sb) more hi fresh h
             (registered_predicates_pure_at hi fresh) Hfind).
  reflexivity.
Qed.

Lemma later_registrations_keep_served_witness :
  served LaunchRequest /\
  lambda_handler
    (add_request_handler (FailingActionHandler (mkException "boom"))
       (add_request_handler (BrokenPredicateHandler (mkException "boom"))
          sb)) LaunchRequest
  = handler LaunchRequest.
Proof.
  assert (Hs : served LaunchRequest) by (left; reflexivity).
  split; [exact Hs |].
  exact (later_registrations_keep_served
           [BrokenPredicateHandler (mkException "boom");
            FailingActionHandler (mkException "boom")]
           LaunchRequest Hs).
Defined.
